(** * mds-articles: the article-resolution pipeline

    A shallow embedding of [src/app/articles/articles.component.ts] (the
    route listener that derives the Markdown content path from the [title]
    route parameter) and of the application configuration that wires the
    Markdown renderer ([appConfig], [provideMarkdown]).

    Conventions of the embedding.
    - A JavaScript string is a [string]; concatenation is [+:+].
    - Angular's [Params] object ([{[key: string]: any}], filled by the router
      from the URL, so every value present is a string) is a finite map
      [gmap string string]; reading a key that is absent yields JavaScript's
      [undefined], here [None].
    - The class instance is a record with the two fields the class declares;
      the subscription callback is a state transformer on that record, and
      the stream of emissions delivered so far is a list folded from the
      left.
    - The Markdown converter, the HTTP client and Angular's HTML filter are
      third-party code; where a statement needs them they are parameters. *)

From Stdlib Require Import String Ascii List.
From stdpp Require Import base gmap strings list.

Open Scope string_scope.

(** ** JavaScript fragments used by the component *)

(** The router's parameter object. *)
Abbreviation Params := (gmap string string).

(** [ToString] as applied by a template literal to the result of a property
    read: an absent property reads as [undefined], which prints as the
    nine letters [undefined]; a string prints as itself. *)
Definition js_to_string (v : option string) : string :=
  match v with
  | Some s => s
  | None => "undefined"
  end.

(** [String.prototype.startsWith], [endsWith] and [includes], by structural
    recursion on the receiver. *)
Definition starts_with (s pre : string) : bool := String.prefix pre s.

Fixpoint includes (s sub : string) : bool :=
  String.prefix sub s ||
  match s with
  | EmptyString => false
  | String _ s' => includes s' sub
  end.

Fixpoint ends_with (s suf : string) : bool :=
  String.eqb s suf ||
  match s with
  | EmptyString => false
  | String _ s' => ends_with s' suf
  end.

(** ** articles.component.ts *)

(** Shape of a content path: never assigned yet, or inside the Markdown
    asset folder with the Markdown extension. *)
Definition path_ok (fp : string) : Prop :=
  fp = "" \/
  (starts_with fp "assets/markdown/" = true /\ ends_with fp ".md" = true).

(** The template literal [`assets/markdown/${params['title']}.md`], as a
    function of the value read from the parameter object. *)
Definition template (title : option string) : string :=
  "assets/markdown/" +:+ js_to_string title +:+ ".md".

Section Component.

(** The type of the reference held in the [params] field, an
    [Observable<Params>] handed out by the router. The component never
    looks inside it; it only subscribes. *)
Context {Observable : Type}.

Record ActivatedRoute := { route_params : Observable }.

Record ArticlesComponent := {
  filePath : string;
  params : Observable;
}.

(** Field initialisers, run before the constructor body:
    [filePath = ''] and [params = inject(ActivatedRoute).params]. *)
Definition init (route : ActivatedRoute) : ArticlesComponent :=
  {| filePath := ""; params := route_params route |}.

(** The assignment [this.filePath = v]. *)
Definition set_filePath (v : string) (this : ArticlesComponent)
  : ArticlesComponent :=
  {| filePath := v; params := params this |}.

(** The arrow function passed to [subscribe]: one assignment to
    [this.filePath]. *)
Definition subscriber (this : ArticlesComponent) (ps : Params)
  : ArticlesComponent :=
  set_filePath (template (ps !! "title")) this.

(** The component after the stream has delivered the emissions [es], in
    order, to the subscriber. *)
Definition deliver (this : ArticlesComponent) (es : list Params)
  : ArticlesComponent :=
  fold_left subscriber es this.

(** States the component can be in: freshly initialised, or one more
    emission after a reachable state. *)
Inductive reachable : ArticlesComponent -> Prop :=
| reach_init route : reachable (init route)
| reach_emit this ps : reachable this -> reachable (subscriber this ps).

(** The two logical states of the spec's state machine, read off the
    content path. *)
Inductive Phase := NoPathYet | PathSet.

Definition phase (this : ArticlesComponent) : Phase :=
  if String.eqb (filePath this) "" then NoPathYet else PathSet.

End Component.

Arguments ActivatedRoute : clear implicits.
Arguments ArticlesComponent : clear implicits.

(** ** app.config.ts *)

(** Angular's [SecurityContext] enumeration. *)
Inductive SecurityContext :=
  NONE | HTML | STYLE | SCRIPT | URL | RESOURCE_URL.

(** The injectables and tokens the configuration names. *)
Inductive Loader := HttpClient.
Inductive ButtonComponent := ClipboardButtonComponent.
Inductive InjectionToken := CLIPBOARD_OPTIONS.

Record ClipboardOptions := { buttonComponent : ButtonComponent }.

Record ValueProvider := {
  provide : InjectionToken;
  useValue : ClipboardOptions;
}.

(** The object literal handed to [provideMarkdown]. *)
Record MarkdownModuleConfig := {
  loader : Loader;
  sanitize : SecurityContext;
  clipboardOptions : ValueProvider;
}.

Section Config.

(** The route table is imported from [./app.routes]; the configuration
    only passes it on to [provideRouter]. *)
Context {Routes : Type}.

Inductive Provider :=
| provideRouter (routes : Routes)
| provideHttpClient
| provideAnimationsAsync
| provideMarkdown (config : MarkdownModuleConfig).

Record ApplicationConfig := { providers : list Provider }.

Definition appConfig (routes : Routes) : ApplicationConfig :=
  {| providers :=
       [ provideRouter routes;
         provideHttpClient;
         provideAnimationsAsync;
         provideMarkdown
           {| loader := HttpClient;
              sanitize := NONE;
              clipboardOptions :=
                {| provide := CLIPBOARD_OPTIONS;
                   useValue :=
                     {| buttonComponent := ClipboardButtonComponent |} |}
           |} ] |}.

(** The Markdown configuration an application was given, if any. *)
Fixpoint find_markdown (ps : list Provider) : option MarkdownModuleConfig :=
  match ps with
  | [] => None
  | provideMarkdown config :: _ => Some config
  | _ :: ps' => find_markdown ps'
  end.

Definition markdown_config (cfg : ApplicationConfig)
  : option MarkdownModuleConfig :=
  find_markdown (providers cfg).

End Config.

Arguments Provider : clear implicits.
Arguments ApplicationConfig : clear implicits.

(** ** The renderer's sanitisation stage *)

Section Renderer.

(** The Markdown-to-HTML conversion and the HTML filter of the hosting
    framework, both outside this repository. *)
Variable convert : string -> string.
Variable html_filter : SecurityContext -> string -> string.

(** Modelled from the spec: the sanitisation step of the external
    rendering library, which is not part of this repository. The spec
    says the converted HTML is displayed "with sanitization explicitly
    disabled" and "rendered verbatim" under this configuration; so with
    the context [NONE] the HTML passes through untouched, and with any
    other context it goes through the framework's filter. *)
Definition sanitizeHtml (ctx : SecurityContext) (html : string) : string :=
  match ctx with
  | NONE => html
  | _ => html_filter ctx html
  end.

(** Modelled from the spec: the Article Renderer of section 4.2, after
    the fetch: convert the Markdown text, then apply the sanitisation
    step chosen by the configuration. *)
Definition render (config : MarkdownModuleConfig) (markdown : string)
  : string :=
  sanitizeHtml (sanitize config) (convert markdown).

Definition render_app {Routes} (cfg : ApplicationConfig Routes)
    (markdown : string) : option string :=
  match markdown_config cfg with
  | Some config => Some (render config markdown)
  | None => None
  end.

End Renderer.

(** ** The view: navigation, fetch and display *)

Section View.

Context {Observable : Type}.

(** The text the HTTP client returns for a path, and the conversion of a
    fetched text into the document put on screen; both outside this
    repository. *)
Variable fetch : string -> string.
Variable show : string -> string.

(** Modelled from the spec: the view around the component, whose
    fetch-and-render stage lives in the external rendering library and
    HTTP client. Section 5 of the spec: the step "suspends asynchronously
    and resumes when the fetch resolves". The view holds the component,
    the paths whose fetch was issued and has not resolved yet (oldest
    first), and the document on screen, if any. *)
Record View := {
  component : ArticlesComponent Observable;
  inflight : list string;
  displayed : option string;
}.

(** Modelled from the spec: the two kinds of event on the UI thread's
    event loop (section 5), absent from the repository's sources: the
    router delivers a parameter snapshot, or the fetch at position [i] of
    the in-flight list resolves. *)
Inductive Event :=
| Navigate (ps : Params)
| Resolve (i : nat).

(** Modelled from the spec: the view before any navigation, "no content
    path yet" (section 4.2): nothing fetched, nothing shown. *)
Definition view_init (route : ActivatedRoute Observable) : View :=
  {| component := init route; inflight := []; displayed := None |}.

(** Modelled from the spec: one turn of the event loop (sections 2 and 5),
    whose fetch and display code is in the external library. A navigation
    runs the component's subscriber and issues a fetch for the new path;
    "no explicit cancellation of an in-flight fetch is performed", so the
    earlier fetches stay in flight. A resolving fetch leaves the in-flight
    list and its rendered text replaces the document on screen; an event
    for a fetch that is not in flight cannot happen. *)
Definition view_step (v : View) (e : Event) : option View :=
  match e with
  | Navigate ps =>
      let this := subscriber (component v) ps in
      Some {| component := this;
              inflight := inflight v ++ [filePath this];
              displayed := displayed v |}
  | Resolve i =>
      match inflight v !! i with
      | Some path =>
          Some {| component := component v;
                  inflight := delete i (inflight v);
                  displayed := Some (show (fetch path)) |}
      | None => None
      end
  end.

(** Modelled from the spec: a sequence of turns of the event loop, one
    event after the other (section 5: single-threaded, event-driven). *)
Fixpoint view_run (v : View) (es : list Event) : option View :=
  match es with
  | [] => Some v
  | e :: es' =>
      match view_step v e with
      | Some v' => view_run v' es'
      | None => None
      end
  end.

End View.

Arguments View : clear implicits.

(** ** Facts about strings *)

Lemma append_cons (a : ascii) (s t : string) :
  String a s +:+ t = String a (s +:+ t).
Proof. reflexivity. Qed.

Lemma append_nil_l (t : string) : "" +:+ t = t.
Proof. reflexivity. Qed.

Lemma length_append (s t : string) :
  String.length (s +:+ t) = String.length s + String.length t.
Proof.
  induction s as [|a s IH]; [reflexivity|].
  rewrite append_cons. cbn [String.length]. now rewrite IH.
Qed.

(** Concatenation cancels a common tail. *)
Lemma append_inv_tail (t s1 s2 : string) :
  s1 +:+ t = s2 +:+ t -> s1 = s2.
Proof.
  revert s2. induction s1 as [|a s1 IH]; intros [|b s2] H.
  - reflexivity.
  - apply (f_equal String.length) in H.
    rewrite append_nil_l, append_cons in H. cbn [String.length] in H.
    rewrite length_append in H. lia.
  - apply (f_equal String.length) in H.
    rewrite append_nil_l, append_cons in H. cbn [String.length] in H.
    rewrite length_append in H. lia.
  - rewrite !append_cons in H. injection H as -> H.
    f_equal. now apply IH.
Qed.

(** Concatenation cancels a common head. *)
Lemma append_inv_head (p s1 s2 : string) :
  p +:+ s1 = p +:+ s2 -> s1 = s2.
Proof.
  induction p as [|a p IH]; intros H; [exact H|].
  rewrite !append_cons in H. injection H as H. now apply IH.
Qed.

Lemma prefix_refl_append (p r : string) : String.prefix p (p +:+ r) = true.
Proof.
  induction p as [|a p IH].
  - now destruct r.
  - rewrite append_cons. cbn [String.prefix].
    destruct (ascii_dec a a) as [_|Hne]; [exact IH | now destruct Hne].
Qed.

Lemma starts_with_append (p r : string) : starts_with (p +:+ r) p = true.
Proof. apply prefix_refl_append. Qed.

Lemma ends_with_refl (s : string) : ends_with s s = true.
Proof. destruct s; cbn [ends_with]; now rewrite String.eqb_refl. Qed.

Lemma ends_with_append (l suf : string) : ends_with (l +:+ suf) suf = true.
Proof.
  induction l as [|a l IH].
  - apply ends_with_refl.
  - rewrite append_cons. cbn [ends_with]. rewrite IH. apply orb_true_r.
Qed.

Lemma append_assoc (s t u : string) : (s +:+ t) +:+ u = s +:+ t +:+ u.
Proof.
  induction s as [|a s IH]; [reflexivity|].
  rewrite !append_cons. now rewrite IH.
Qed.

(** ** Facts about the template *)

Lemma template_not_empty (v : option string) : template v <> "".
Proof. discriminate. Qed.

Lemma template_starts (v : option string) :
  starts_with (template v) "assets/markdown/" = true.
Proof. apply starts_with_append. Qed.

Lemma template_ends (v : option string) : ends_with (template v) ".md" = true.
Proof.
  unfold template. rewrite <- append_assoc. apply ends_with_append.
Qed.

Lemma template_inj (a b : string) :
  template (Some a) = template (Some b) -> a = b.
Proof.
  unfold template, js_to_string. intros H.
  apply append_inv_head in H. now apply append_inv_tail in H.
Qed.

(** ** Facts about delivery *)

Lemma deliver_nil {O} (this : ArticlesComponent O) : deliver this [] = this.
Proof. reflexivity. Qed.

Lemma deliver_cons {O} (this : ArticlesComponent O) ps es :
  deliver this (ps :: es) = deliver (subscriber this ps) es.
Proof. reflexivity. Qed.

Lemma deliver_snoc {O} (this : ArticlesComponent O) es ps :
  deliver this (es ++ [ps]) = subscriber (deliver this es) ps.
Proof. unfold deliver. now rewrite fold_left_app. Qed.

Lemma filePath_subscriber {O} (this : ArticlesComponent O) ps :
  filePath (subscriber this ps) = template (ps !! "title").
Proof. reflexivity. Qed.

Lemma params_deliver {O} (this : ArticlesComponent O) es :
  params (deliver this es) = params this.
Proof.
  revert this. induction es as [|ps es IH]; intros this; [reflexivity|].
  rewrite deliver_cons, IH. reflexivity.
Qed.

Lemma deliver_last {O} (this : ArticlesComponent O) es ps :
  last es = Some ps ->
  filePath (deliver this es) = template (ps !! "title").
Proof.
  intros Hlast. destruct es as [|e es _] using rev_ind; [discriminate|].
  rewrite last_snoc in Hlast. injection Hlast as ->.
  now rewrite deliver_snoc.
Qed.

(** ** Facts about the configuration *)

Lemma markdown_config_appConfig {R} (routes : R) :
  sanitize <$> markdown_config (appConfig routes) = Some NONE.
Proof. reflexivity. Qed.

Lemma sanitizeHtml_NONE filter (html : string) :
  sanitizeHtml filter NONE html = html.
Proof. reflexivity. Qed.

(** A run of the component: three navigations, the second without a title
    and with an extra key. *)
Example deliver_three :
  filePath
    (deliver (init {| route_params := 0 |})
       [ {[ "title" := "oop-paradigm" ]};
         {[ "page" := "2" ]};
         <[ "title" := "dotnet-backend" ]> {[ "page" := "2" ]} ])
  = "assets/markdown/dotnet-backend.md".
Proof. reflexivity. Qed.

(** The title is spliced in as it is, also when it steers out of the asset
    folder. *)
Example template_no_escaping :
  template (Some "../../secret") = "assets/markdown/../../secret.md".
Proof. reflexivity. Qed.

(** An absent title and the title [undefined] give the same path. *)
Example template_absent_collides :
  template None = template (Some "undefined").
Proof. reflexivity. Qed.

(** With a context other than [NONE] the filter runs: the configuration is
    what lets the tag through. *)
Example render_filtered :
  includes
    (render (fun md => md) (fun _ _ => "")
       {| loader := HttpClient; sanitize := HTML;
          clipboardOptions :=
            {| provide := CLIPBOARD_OPTIONS;
               useValue := {| buttonComponent := ClipboardButtonComponent |} |}
       |}
       "<script>alert(1)</script>")
    "<script>" = false.
Proof. reflexivity. Qed.

(** * The claims *)

(** C1. Whenever an emission carries a title string [t], the subscriber
    leaves the content path equal to ['assets/markdown/' ++ t ++ '.md'],
    with [t] spliced in unchanged: no transformation, escaping or
    validation. *)
Theorem subscriber_path_of_title {O} (this : ArticlesComponent O)
    (ps : Params) (t : string) :
  ps !! "title" = Some t ->
  filePath (subscriber this ps) = "assets/markdown/" +:+ t +:+ ".md".
Proof. intros Ht. rewrite filePath_subscriber, Ht. reflexivity. Qed.

Lemma subscriber_path_of_title_witness :
  ({[ "title" := "a b/../<x>" ]} : Params) !! "title" = Some "a b/../<x>" /\
  filePath (subscriber (init {| route_params := 0 |})
                       {[ "title" := "a b/../<x>" ]})
  = "assets/markdown/a b/../<x>.md".
Proof.
  split; [reflexivity|].
  exact (subscriber_path_of_title (init {| route_params := 0 |})
           {[ "title" := "a b/../<x>" ]} "a b/../<x>" eq_refl).
Defined.

(** C2. The application configures the Markdown pipeline with
    [sanitize = SecurityContext.NONE]; under that configuration the
    rendered output is the converter's HTML verbatim, so a raw [<script>]
    tag the converter emitted is included unescaped. *)
Theorem appConfig_sanitize_disabled {R} (routes : R)
    (convert : string -> string)
    (html_filter : SecurityContext -> string -> string)
    (markdown tag : string) :
  includes (convert markdown) tag = true ->
  sanitize <$> markdown_config (appConfig routes) = Some NONE /\
  render_app convert html_filter (appConfig routes) markdown
    = Some (convert markdown) /\
  exists html,
    render_app convert html_filter (appConfig routes) markdown = Some html /\
    includes html tag = true.
Proof.
  intros Hraw. split; [reflexivity|]. split; [reflexivity|].
  exists (convert markdown). split; [reflexivity | exact Hraw].
Qed.

Lemma appConfig_sanitize_disabled_witness :
  includes "<h1>Hi</h1><script>alert(1)</script>" "<script>" = true /\
  exists html,
    render_app (fun md => md) (fun _ _ => "") (appConfig ["articles/:title"])
      "<h1>Hi</h1><script>alert(1)</script>" = Some html /\
    includes html "<script>" = true.
Proof.
  split; [reflexivity|].
  apply (appConfig_sanitize_disabled ["articles/:title"] (fun md => md)
           (fun _ _ => "") "<h1>Hi</h1><script>alert(1)</script>"
           "<script>" eq_refl).
Defined.

(** C3. Whenever an emission has no [title] key, the content path becomes
    ['assets/markdown/undefined.md']: the missing value shows up literally
    in the template. *)
Theorem subscriber_path_title_absent {O} (this : ArticlesComponent O)
    (ps : Params) :
  ps !! "title" = None ->
  filePath (subscriber this ps) = "assets/markdown/undefined.md".
Proof. intros Ht. rewrite filePath_subscriber, Ht. reflexivity. Qed.

Lemma subscriber_path_title_absent_witness :
  ({[ "id" := "7" ]} : Params) !! "title" = None /\
  filePath (subscriber (init {| route_params := 0 |}) {[ "id" := "7" ]})
  = "assets/markdown/undefined.md".
Proof.
  split; [reflexivity|].
  exact (subscriber_path_title_absent (init {| route_params := 0 |})
           {[ "id" := "7" ]} eq_refl).
Defined.

(** C4. The update overwrites: the path after an emission is the same from
    every prior state, and after a non-empty sequence of emissions, from
    any starting state, it is the path that the last emission alone gives
    (last navigation wins). *)
Theorem last_navigation_wins {O} (this other : ArticlesComponent O)
    (es : list Params) (ps : Params) :
  last es = Some ps ->
  filePath (subscriber this ps) = filePath (subscriber other ps) /\
  filePath (deliver this es) = filePath (deliver other [ps]).
Proof.
  intros Hlast. split; [reflexivity|].
  rewrite (deliver_last this es ps Hlast). reflexivity.
Qed.

Lemma last_navigation_wins_witness :
  last [ ({[ "title" := "A" ]} : Params); {[ "title" := "B" ]} ]
    = Some {[ "title" := "B" ]} /\
  filePath (deliver (init {| route_params := 0 |})
              [ {[ "title" := "A" ]}; {[ "title" := "B" ]} ])
  = filePath (deliver {| filePath := "stale"; params := 1 |}
              [ {[ "title" := "B" ]} ]).
Proof.
  split; [reflexivity|].
  apply (last_navigation_wins (init {| route_params := 0 |})
           {| filePath := "stale"; params := 1 |}
           [ {[ "title" := "A" ]}; {[ "title" := "B" ]} ]
           {[ "title" := "B" ]} eq_refl).
Defined.

(** C5. Only the [title] key matters: two parameter objects that agree on
    [title], whatever else they hold, give the same content path (from any
    two prior states). *)
Theorem only_title_is_read {O} (this other : ArticlesComponent O)
    (ps qs : Params) :
  ps !! "title" = qs !! "title" ->
  filePath (subscriber this ps) = filePath (subscriber other qs).
Proof. intros Heq. rewrite !filePath_subscriber, Heq. reflexivity. Qed.

Lemma only_title_is_read_witness :
  (<[ "title" := "A" ]> {[ "page" := "2" ]} : Params) !! "title"
    = (<[ "title" := "A" ]> {[ "lang" := "en" ]} : Params) !! "title" /\
  filePath (subscriber (init {| route_params := 0 |})
              (<[ "title" := "A" ]> {[ "page" := "2" ]}))
  = filePath (subscriber (init {| route_params := 0 |})
              (<[ "title" := "A" ]> {[ "lang" := "en" ]})).
Proof.
  split; [reflexivity|].
  exact (only_title_is_read (init {| route_params := 0 |})
           (init {| route_params := 0 |})
           (<[ "title" := "A" ]> {[ "page" := "2" ]})
           (<[ "title" := "A" ]> {[ "lang" := "en" ]}) eq_refl).
Defined.

(** C6. The component has two logical states and no terminal one: a fresh
    component has the empty content path ("no content path yet"); every
    emission, from whichever state, is accepted and leads to the state
    "path set", with a non-empty path recomputed from that emission; so
    after the first emission the path is never empty again. *)
Theorem phases_of_component {O} (route : ActivatedRoute O)
    (this : ArticlesComponent O) (es : list Params) (ps : Params) :
  (filePath (init route) = "" /\ phase (init route) = NoPathYet) /\
  (phase this = NoPathYet \/ phase this = PathSet) /\
  (phase (subscriber this ps) = PathSet /\
   filePath (subscriber this ps) = template (ps !! "title") /\
   filePath (subscriber this ps) <> "") /\
  (phase (deliver (init route) (ps :: es)) = PathSet /\
   filePath (deliver (init route) (ps :: es)) <> "").
Proof.
  assert (Hstep : forall (c : ArticlesComponent O) q,
             phase (subscriber c q) = PathSet /\
             filePath (subscriber c q) <> "").
  { intros c q. split; [reflexivity | apply template_not_empty]. }
  assert (Hrun : forall (c : ArticlesComponent O) q qs,
             phase (deliver c (q :: qs)) = PathSet /\
             filePath (deliver c (q :: qs)) <> "").
  { intros c q qs. destruct qs as [|e qs _] using rev_ind.
    - apply Hstep.
    - rewrite app_comm_cons, deliver_snoc. apply Hstep. }
  split; [split; reflexivity|].
  split.
  { unfold phase. destruct (String.eqb (filePath this) ""); auto. }
  split.
  { destruct (Hstep this ps) as [Hp Hne]. repeat split; assumption. }
  apply Hrun.
Qed.

(** C7. An emission changes the [filePath] field and nothing else: the
    subscriber is one assignment to [filePath], and the [params] reference
    is the same before and after one emission and after any number of
    them. *)
Theorem subscriber_frame {O} (this : ArticlesComponent O)
    (ps : Params) (es : list Params) :
  subscriber this ps
    = {| filePath := template (ps !! "title"); params := params this |} /\
  params (subscriber this ps) = params this /\
  params (deliver this es) = params this.
Proof.
  split; [reflexivity|]. split; [reflexivity|]. apply params_deliver.
Qed.

(** A fetch that is last in the in-flight list resolves: it leaves the
    list and its rendered text is shown. *)
Lemma view_step_resolve_last {O} (fetch show : string -> string)
    (c : ArticlesComponent O) (l : list string) (p : string)
    (d : option string) :
  view_step fetch show
    {| component := c; inflight := l ++ [p]; displayed := d |}
    (Resolve (List.length l))
  = Some {| component := c; inflight := l;
            displayed := Some (show (fetch p)) |}.
Proof.
  cbn [view_step inflight component].
  rewrite (list_lookup_middle l [] p (List.length l) eq_refl).
  now rewrite delete_middle, app_nil_r.
Qed.

(** The race on a run: the user opens A, then B; B's text arrives and is
    shown; A's text arrives late and replaces it. *)
Example stale_overwrite_run :
  let fetch := fun path => "text of " +:+ path in
  let v := view_run fetch (fun md => md) (view_init {| route_params := 0 |})
             [ Navigate {[ "title" := "A" ]}; Navigate {[ "title" := "B" ]};
               Resolve 1; Resolve 0 ] in
  (filePath ∘ component) <$> v = Some "assets/markdown/B.md" /\
  displayed <$> v = Some (Some "text of assets/markdown/A.md") /\
  inflight <$> v = Some [].
Proof. repeat split. Qed.

(** C8. A navigation cancels nothing: it adds the new path's fetch behind
    the fetches already in flight and leaves them, and the screen, as they
    were. So when the fetch for an older path A resolves after the fetch
    for the newer path B, the text of A replaces the text of B on screen
    while the component's content path is still B's: the race is there
    and nothing mitigates it. *)
Theorem stale_fetch_overwrites {O} (fetch show : string -> string)
    (v : View O) (a b : Params) :
  view_step fetch show v (Navigate b)
    = Some {| component := subscriber (component v) b;
              inflight := inflight v ++ [template (b !! "title")];
              displayed := displayed v |} /\
  exists v1 v2 : View O,
    view_run fetch show v
      [Navigate a; Navigate b; Resolve (S (List.length (inflight v)))] = Some v1 /\
    filePath (component v1) = template (b !! "title") /\
    inflight v1 = (inflight v ++ [template (a !! "title")])%list /\
    displayed v1 = Some (show (fetch (template (b !! "title")))) /\
    view_step fetch show v1 (Resolve (List.length (inflight v))) = Some v2 /\
    filePath (component v2) = template (b !! "title") /\
    inflight v2 = inflight v /\
    displayed v2 = Some (show (fetch (template (a !! "title")))).
Proof.
  split; [reflexivity|].
  destruct v as [c l d]. cbn [inflight].
  set (pa := template (a !! "title")). set (pb := template (b !! "title")).
  set (cb := subscriber (subscriber c a) b).
  exists {| component := cb; inflight := l ++ [pa];
            displayed := Some (show (fetch pb)) |}.
  exists {| component := cb; inflight := l;
            displayed := Some (show (fetch pa)) |}.
  split.
  { cbn [view_run]. cbn [view_step inflight component displayed].
    change (filePath (subscriber c a)) with pa.
    change (filePath (subscriber (subscriber c a) b)) with pb.
    fold cb.
    replace (S (List.length l)) with (List.length (l ++ [pa]))
      by (rewrite List.length_app; cbn [List.length]; lia).
    pose proof (view_step_resolve_last fetch show cb (l ++ [pa]) pb d) as Hr.
    cbn [view_step inflight component] in Hr. rewrite Hr. reflexivity. }
  split; [reflexivity|]. split; [reflexivity|]. split; [reflexivity|].
  split; [apply view_step_resolve_last|].
  repeat split.
Qed.

(** C9. The path construction is injective in the title: equal paths come
    from equal titles, and distinct titles give distinct paths. *)
Theorem content_path_injective (a b : string) :
  ("assets/markdown/" +:+ a +:+ ".md" = "assets/markdown/" +:+ b +:+ ".md"
   -> a = b) /\
  (a <> b -> template (Some a) <> template (Some b)).
Proof.
  split.
  - apply template_inj.
  - intros Hne Heq. apply Hne. now apply template_inj.
Qed.

Lemma content_path_injective_witness :
  "oop-paradigm" <> "dotnet-backend" /\
  template (Some "oop-paradigm") <> template (Some "dotnet-backend") /\
  "c.md" = "c.md".
Proof.
  split; [discriminate|]. split.
  - apply (proj2 (content_path_injective "oop-paradigm" "dotnet-backend")).
    discriminate.
  - apply (proj1 (content_path_injective "c.md" "c.md")). reflexivity.
Defined.

(** C10. In every reachable state the content path is empty or starts
    with ['assets/markdown/'] and ends with ['.md'], and every emission
    preserves that shape. *)
Theorem filePath_invariant {O} (this : ArticlesComponent O) (ps : Params) :
  (reachable this -> path_ok (filePath this)) /\
  (path_ok (filePath this) -> path_ok (filePath (subscriber this ps))).
Proof.
  assert (Hstep : forall (c : ArticlesComponent O) q,
             path_ok (filePath (subscriber c q))).
  { intros c q. right. rewrite filePath_subscriber.
    split; [apply template_starts | apply template_ends]. }
  split.
  - intros Hreach. induction Hreach as [route | c q _ _].
    + now left.
    + apply Hstep.
  - intros _. apply Hstep.
Qed.

Lemma filePath_invariant_witness :
  reachable (subscriber (init {| route_params := 0 |}) {[ "title" := "A" ]}) /\
  path_ok "assets/markdown/A.md" /\
  path_ok (filePath
             (subscriber
                (subscriber (init {| route_params := 0 |})
                   {[ "title" := "A" ]})
                {[ "page" := "2" ]})).
Proof.
  assert (Hr : reachable
                 (subscriber (init {| route_params := 0 |})
                    {[ "title" := "A" ]})).
  { apply reach_emit, reach_init. }
  split; [exact Hr|].
  pose proof (filePath_invariant
                (subscriber (init {| route_params := 0 |})
                   {[ "title" := "A" ]})
                {[ "page" := "2" ]}) as [Hinv Hpres].
  split; [exact (Hinv Hr) | exact (Hpres (Hinv Hr))].
Defined.

(** * Further properties of the component *)

(** ** Substrings survive concatenation *)

Lemma prefix_nil_l (s : string) : String.prefix "" s = true.
Proof. now destruct s. Qed.

Lemma prefix_append_r (x s r : string) :
  String.prefix x s = true -> String.prefix x (s +:+ r) = true.
Proof.
  revert x. induction s as [|b s IH]; intros [|a x] H.
  - apply prefix_nil_l.
  - discriminate H.
  - apply prefix_nil_l.
  - rewrite append_cons. cbn [String.prefix] in *.
    destruct (ascii_dec a b); [now apply IH | discriminate H].
Qed.

Lemma includes_unfold (s x : string) :
  includes s x =
  String.prefix x s ||
  match s with
  | EmptyString => false
  | String _ s' => includes s' x
  end.
Proof. now destruct s. Qed.

Lemma includes_append_l (p s x : string) :
  includes s x = true -> includes (p +:+ s) x = true.
Proof.
  intros H. induction p as [|a p IH]; [exact H|].
  rewrite append_cons, includes_unfold, IH. apply orb_true_r.
Qed.

Lemma includes_append_r (s r x : string) :
  includes s x = true -> includes (s +:+ r) x = true.
Proof.
  induction s as [|a s IH]; intros H; rewrite includes_unfold in H.
  - rewrite orb_false_r in H. destruct x; [|discriminate H].
    rewrite includes_unfold, prefix_nil_l. reflexivity.
  - apply orb_true_iff in H as [H|H].
    + rewrite includes_unfold, (prefix_append_r _ _ _ H). reflexivity.
    + rewrite append_cons, includes_unfold, (IH H). apply orb_true_r.
Qed.

Lemma template_printed_inj (v w : option string) :
  template v = template w -> js_to_string v = js_to_string w.
Proof.
  unfold template. intros H.
  apply append_inv_head in H. now apply append_inv_tail in H.
Qed.

(** X1. Nothing in the title is stripped or escaped: every fragment that
    occurs in the title carried by an emission (a ['../'], a ['<'], a
    space) occurs in the content path the subscriber assigns. *)
Theorem title_fragment_survives {O} (this : ArticlesComponent O)
    (ps : Params) (t x : string) :
  ps !! "title" = Some t ->
  includes t x = true ->
  includes (filePath (subscriber this ps)) x = true.
Proof.
  intros Ht Hx. rewrite filePath_subscriber, Ht. unfold template.
  apply includes_append_l, includes_append_r. exact Hx.
Qed.

Lemma title_fragment_survives_witness :
  ({[ "title" := "a/../../etc" ]} : Params) !! "title" = Some "a/../../etc" /\
  includes "a/../../etc" "../" = true /\
  includes (filePath (subscriber (init {| route_params := 0 |})
                        {[ "title" := "a/../../etc" ]})) "../" = true.
Proof.
  split; [reflexivity|]. split; [reflexivity|].
  exact (title_fragment_survives (init {| route_params := 0 |})
           {[ "title" := "a/../../etc" ]} "a/../../etc" "../"
           eq_refl eq_refl).
Defined.

(** X2. Two emissions leave the same content path exactly when their
    titles print the same: equal strings, both absent, or one absent and
    the other the string ['undefined']. The prior states play no part. *)
Theorem same_path_iff_same_printed_title {O}
    (this other : ArticlesComponent O) (ps qs : Params) :
  filePath (subscriber this ps) = filePath (subscriber other qs) <->
  js_to_string (ps !! "title") = js_to_string (qs !! "title").
Proof.
  rewrite !filePath_subscriber. split.
  - apply template_printed_inj.
  - unfold template. now intros ->.
Qed.

Lemma same_path_iff_same_printed_title_witness :
  filePath (subscriber (init {| route_params := 0 |}) {[ "page" := "2" ]})
  = filePath (subscriber {| filePath := "stale"; params := 1 |}
                {[ "title" := "undefined" ]}) /\
  js_to_string (({[ "title" := "A" ]} : Params) !! "title")
  = js_to_string (({[ "title" := "A" ]} : Params) !! "title").
Proof.
  split.
  - apply (proj2 (same_path_iff_same_printed_title
                    (init {| route_params := 0 |})
                    {| filePath := "stale"; params := 1 |}
                    {[ "page" := "2" ]} {[ "title" := "undefined" ]})).
    reflexivity.
  - apply (proj1 (same_path_iff_same_printed_title
                    (init {| route_params := 0 |})
                    (init {| route_params := 0 |})
                    {[ "title" := "A" ]} {[ "title" := "A" ]})).
    reflexivity.
Defined.

(** X3. The whole history collapses into the last emission: after a
    non-empty sequence of emissions the component, as a whole, is what the
    last emission alone makes of the starting component; so delivering an
    emission a second time changes nothing. *)
Theorem deliver_collapses {O} (this : ArticlesComponent O)
    (es : list Params) (ps : Params) :
  last es = Some ps ->
  deliver this es = subscriber this ps /\
  deliver this (es ++ [ps]) = deliver this es.
Proof.
  intros Hlast.
  assert (Hone : forall qs q, deliver this (qs ++ [q]) = subscriber this q).
  { intros qs q. rewrite deliver_snoc.
    unfold subscriber, set_filePath. now rewrite params_deliver. }
  destruct es as [|e es _] using rev_ind; [discriminate|].
  rewrite last_snoc in Hlast. injection Hlast as ->.
  split; [apply Hone|]. now rewrite !Hone.
Qed.

Lemma deliver_collapses_witness :
  last [ ({[ "title" := "A" ]} : Params); {[ "page" := "2" ]};
         {[ "title" := "B" ]} ] = Some {[ "title" := "B" ]} /\
  deliver (init {| route_params := 0 |})
    [ {[ "title" := "A" ]}; {[ "page" := "2" ]}; {[ "title" := "B" ]} ]
  = subscriber (init {| route_params := 0 |}) {[ "title" := "B" ]}.
Proof.
  split; [reflexivity|].
  apply (deliver_collapses (init {| route_params := 0 |})
           [ {[ "title" := "A" ]}; {[ "page" := "2" ]}; {[ "title" := "B" ]} ]
           {[ "title" := "B" ]} eq_refl).
Defined.

(** X4. The reachable states are exactly the components whose content
    path is empty or an instance of the template: every such path, also
    one that leaves the asset folder, is produced by some emission, and
    the [params] reference puts no restriction. *)
Theorem reachable_iff_template {O} (this : ArticlesComponent O) :
  reachable this <->
  filePath this = "" \/ exists v : option string, filePath this = template v.
Proof.
  split.
  - intros Hreach. induction Hreach as [route | c q _ _].
    + now left.
    + right. exists (q !! "title"). apply filePath_subscriber.
  - destruct this as [fp obs]. cbn [filePath]. intros [-> | [v ->]].
    + apply (reach_init {| route_params := obs |}).
    + pose (ps := match v with
                  | Some t => ({[ "title" := t ]} : Params)
                  | None => ∅
                  end).
      assert (Hps : ps !! "title" = v).
      { destruct v as [t|]; subst ps.
        - apply lookup_singleton_eq.
        - apply lookup_empty. }
      pose proof (reach_emit _ ps (reach_init {| route_params := obs |}))
        as Hr.
      unfold subscriber, set_filePath in Hr. rewrite Hps in Hr. exact Hr.
Qed.

Lemma reachable_iff_template_witness :
  reachable {| filePath := "assets/markdown/../../index.html#.md";
               params := 5 |} /\
  (filePath (init {| route_params := 0 |}) = "" \/
   exists v : option string,
     filePath (init {| route_params := 0 |}) = template v).
Proof.
  split.
  - apply (proj2 (reachable_iff_template
                    {| filePath := "assets/markdown/../../index.html#.md";
                       params := 5 |})).
    right. exists (Some "../../index.html#"). reflexivity.
  - apply (proj1 (reachable_iff_template (init {| route_params := 0 |}))).
    apply reach_init.
Defined.
